(** * FullyConnectedModel

    A shallow embedding of [lib/models/fully_connected.py]: the hierarchical
    fully-connected latent variable model, its construction from a
    configuration, the assembly of the encoding, the output error, the
    generative pass, the re-initialisation and the two parameter accessors.

    Conventions.
    - A Python call that may raise returns a [result]; the exceptions are the
      ones the statements of the file itself can raise (subscripts, name
      look-up, [list(...)], [raise]) and the [RuntimeError] of a tensor
      subtraction on shapes that do not broadcast.
    - The collaborators that live outside the file (the tensor library, the
      latent levels, the networks, the distributions) are interfaces: type
      classes and records of methods.  They are taken at their boundary
      contract, a call returns a value; state they mutate is passed
      explicitly.
    - Mutation of [self] is explicit state passing: a method returns the new
      model next to its value. *)

From Stdlib Require Import List String ZArith QArith Bool Lia.
Import ListNotations.
Local Close Scope Q_scope.
Local Open Scope string_scope.
Local Open Scope list_scope.

Set Implicit Arguments.

(** ** Python values the file manipulates *)

(** The exceptions raised by the statements of the module. *)
Inductive exn : Type :=
| IndexError
| NameError (name : string)
| TypeError
| NotImplementedError
| RuntimeError.

Inductive result (A : Type) : Type :=
| Ok (a : A)
| Raise (e : exn).

Arguments Ok {A} a.
Arguments Raise {A} e.

Definition bind {A B : Type} (c : result A) (k : A -> result B) : result B :=
  match c with
  | Ok a => k a
  | Raise e => Raise e
  end.

Notation "x <- c ;; k" := (bind c (fun x => k))
  (at level 61, c at next level, right associativity).
Notation "c ;;; k" := (bind c (fun _ => k))
  (at level 61, right associativity).

(** [xs[i]] for a non-negative index. *)
Definition subscript {A : Type} (xs : list A) (i : nat) : result A :=
  match nth_error xs i with
  | Some x => Ok x
  | None => Raise IndexError
  end.

(** [name in xs] for a list of strings. *)
Definition py_in (name : string) (xs : list string) : bool :=
  existsb (String.eqb name) xs.

(** The names bound in the module's namespace by lines 1-7 and 10:
    [import torch.nn as nn] binds [nn] only. *)
Definition module_globals : list string :=
  [ "nn"; "Model"; "FullyConnectedLatentLevel"; "FullyConnectedNetwork";
    "FullyConnectedLayer"; "Normal"; "Bernoulli"; "Multinomial"; "LayerNorm";
    "FullyConnectedModel" ].

(** Looking a global name up at run time. *)
Definition load_global (name : string) : result unit :=
  if py_in name module_globals then Ok tt else Raise (NameError name).

(** A trainable parameter, known by its identity. *)
Definition param : Type := positive.

(** What [list(...)] can be handed in this file: an iterable, or a bound
    method that was not called. *)
Inductive pyobject : Type :=
| Iterable (xs : list param)
| BoundMethod (call : unit -> list param).

Definition py_list (o : pyobject) : result (list param) :=
  match o with
  | Iterable xs => Ok xs
  | BoundMethod _ => Raise TypeError
  end.

(** ** Configuration *)

(** The keyword arguments of [_construct]. *)
Record model_config : Type := {
  inference_input_form : list string;
  constant_variances_gen : bool;
  n_latent : list Z;
  n_layers_inf : list Z;
  n_layers_gen : list Z;
  n_units_inf : list Z;
  n_units_gen : list Z;
  non_linearity_inf : string;
  non_linearity_gen : string;
  connection_type_inf : string;
  connection_type_gen : string;
  batch_norm_inf : bool;
  batch_norm_gen : bool
}.

(** [latent_config], a dictionary with three keys. *)
Record latent_config : Type := {
  latent_n_in : list Z;
  n_variables : Z;
  latent_inference_procedure : list string
}.

(** [inference_config] and [generative_config] share their keys. *)
Record network_config : Type := {
  n_in : option Z;
  n_units : Z;
  connection_type : string;
  non_linearity : string;
  batch_norm : bool
}.

Record level_config : Type := {
  level_latent_config : latent_config;
  level_inference_procedure : list string;
  inference_config : network_config;
  generative_config : network_config
}.

(** The body of the loop of [_construct], lines 48-68, for one [level_ind]. *)
Definition build_level_config (inference_procedure : list string)
    (cfg : model_config) (level_ind : nat) : result level_config :=
  units_inf <- subscript (n_units_inf cfg) level_ind ;;
  units_gen <- subscript (n_units_gen cfg) (level_ind + 1) ;;
  variables <- subscript (n_latent cfg) level_ind ;;
  let latent_config :=
    {| latent_n_in := [units_inf; units_gen];
       n_variables := variables;
       latent_inference_procedure := inference_procedure |} in
  units_inf' <- subscript (n_units_inf cfg) level_ind ;;
  let inference_config :=
    {| n_in := None;
       n_units := units_inf';
       connection_type := connection_type_inf cfg;
       non_linearity := non_linearity_inf cfg;
       batch_norm := batch_norm_inf cfg |} in
  latent_above <- subscript (n_latent cfg) (level_ind + 1) ;;
  units_gen' <- subscript (n_units_gen cfg) (level_ind + 1) ;;
  let generative_config :=
    {| n_in := Some latent_above;
       n_units := units_gen';
       connection_type := connection_type_gen cfg;
       non_linearity := non_linearity_gen cfg;
       batch_norm := batch_norm_gen cfg |} in
  Ok {| level_latent_config := latent_config;
        level_inference_procedure := inference_procedure;
        inference_config := inference_config;
        generative_config := generative_config |}.

(** The lengths the specification calls consistent: with [L] the length of
    [n_latent], the inference lists have [L] entries and the generative
    lists [L + 1]. *)
Definition consistent_lengths (cfg : model_config) : bool :=
  let L := List.length (n_latent cfg) in
  (List.length (n_layers_inf cfg) =? L)%nat
  && (List.length (n_units_inf cfg) =? L)%nat
  && (List.length (n_layers_gen cfg) =? L + 1)%nat
  && (List.length (n_units_gen cfg) =? L + 1)%nat.

(** Two shapes broadcast when, aligned on the last axis, the sizes of every
    axis they share are equal or one of them is 1; the tensor library
    raises [RuntimeError] from an elementwise operation on shapes that do
    not.  The shapes are given reversed. *)
Fixpoint broadcastable_rev (a b : list nat) : bool :=
  match a, b with
  | x :: a', y :: b' =>
      ((x =? y)%nat || (x =? 1)%nat || (y =? 1)%nat) && broadcastable_rev a' b'
  | _, _ => true
  end.

Definition broadcastable (a b : list nat) : bool :=
  broadcastable_rev (rev a) (rev b).

(** ** Collaborators *)

(** The family of the output distribution, [type(self.output_dist)]. *)
Inductive family : Type := Normal | Bernoulli | Multinomial.

(** The operations of the tensor library (PyTorch) the file uses.  [shape]
    is the [shape] attribute as a list; [cat] and [exp] are what [torch.cat]
    and [torch.exp] compute once the name [torch] is resolved. *)
Class Torch (T : Type) : Type := {
  data : T -> T;
  shape : T -> list nat;
  detach : T -> T;
  sub_scalar : T -> Q -> T;
  add_scalar : T -> Q -> T;
  sub : T -> T -> T;
  div : T -> T -> T;
  unsqueeze : T -> nat -> T;
  repeat : T -> list nat -> T;
  mean_dim : T -> nat -> T;
  cat : list T -> nat -> T;
  exp : T -> T
}.

(** Modelled from the spec: [lib.modules.misc] is not among the sources.
    [LayerNorm t] is [LayerNorm()(t)], the normalisation applied to every
    tensor that enters a gradient or error contribution (section 4.1). *)
Class Normalisation (T : Type) : Type := {
  LayerNorm : T -> T
}.

(** Modelled from the spec: [lib.modules.latent_levels] is not among the
    sources.  Section 4.2 gives the boundary of a latent level: it is built
    from a level configuration, [infer] and [generate] return the next
    encoding and decoding and update the level, its [latent] offers the
    posterior gradients and parameters, the error and [re_init], and the
    level lists its inference and generative parameters.  [L] is the state
    of a level, [G] the state of the random generator sampling advances. *)
Class LatentLevel (T L G : Type) : Type := {
  FullyConnectedLatentLevel : level_config -> L;
  level_infer : L -> T -> L * T;
  level_generate : L -> option T -> bool -> Z -> G -> L * T * G;
  approx_posterior_gradients : L -> list T;
  approx_posterior_parameters : L -> list T;
  latent_error : L -> T;
  latent_re_init : L -> L;
  level_inference_parameters : L -> list param;
  level_generative_parameters : L -> list param
}.

(** Modelled from the spec: what [latent.re_init()] of
    [lib.modules.latent_levels] establishes, the latent variable is back in
    its initial state (section 4.1, [re_init]). *)
Class LatentReset (T L G : Type) `{LatentLevel T L G} : Type := {
  latent_initial : L -> Prop;
  latent_re_init_initial : forall level, latent_initial (latent_re_init level)
}.

(** An [nn.Module], which the output networks are: calling it, and its
    [parameters] method. *)
Record nn_Module (T : Type) : Type := {
  forward : option T -> T;
  parameters : unit -> list param
}.

(** Modelled from the spec: [lib.distributions] is not among the sources.
    A distribution has its family and holds its current parameter tensors,
    [mean] and [log_var] (sections 3 and 4.3). *)
Record Distribution (T : Type) : Type := {
  dist_family : family;
  mean : T;
  log_var : T
}.

(** Modelled from the spec: [sample()] of [lib.distributions] draws from
    the distribution with its current parameters (section 4.3). *)
Class Sampling (T G : Type) : Type := {
  sample : Distribution T -> G -> T * G
}.

(** The attributes of a [FullyConnectedModel] that the methods read.  The
    four output attributes are not assigned in this file: they come with
    the object, from the base class [Model] ([model.py], not among the
    sources). *)
Record FullyConnectedModel (T L : Type) : Type := {
  inference_procedure : list string;
  latent_levels : list L;
  output_network : nn_Module T;
  output_mean : nn_Module T;
  output_log_var : nn_Module T;
  output_dist : Distribution T
}.

Section Model.

Context {T L G : Type}.
Context `{TorchT : Torch T} `{NormT : Normalisation T}
        `{LevelL : LatentLevel T L G} `{SamplingT : Sampling T G}.

Local Abbreviation model := (FullyConnectedModel T L).

Definition set_construct (self : model) (procedure : list string)
    (levels : list L) : model :=
  {| inference_procedure := procedure;
     latent_levels := levels;
     output_network := output_network self;
     output_mean := output_mean self;
     output_log_var := output_log_var self;
     output_dist := output_dist self |}.

Definition set_latent_levels (self : model) (levels : list L) : model :=
  set_construct self (inference_procedure self) levels.

Definition set_output_dist (self : model) (d : Distribution T) : model :=
  {| inference_procedure := inference_procedure self;
     latent_levels := latent_levels self;
     output_network := output_network self;
     output_mean := output_mean self;
     output_log_var := output_log_var self;
     output_dist := d |}.

(** *** [_construct], lines 21-71 *)

(** [for level_ind in range(len(n_latent))], the levels appended so far in
    [levels]. *)
Fixpoint construct_loop (procedure : list string) (cfg : model_config)
    (level_inds : list nat) (levels : list L) : result (list L) :=
  match level_inds with
  | [] => Ok levels
  | level_ind :: rest =>
      level_cfg <- build_level_config procedure cfg level_ind ;;
      let latent_level := FullyConnectedLatentLevel level_cfg in
      construct_loop procedure cfg rest (levels ++ [latent_level])
  end.

Definition _construct (self : model) (cfg : model_config) : result model :=
  let procedure := inference_input_form cfg in
  levels <- construct_loop procedure cfg
              (seq 0 (List.length (n_latent cfg))) [] ;;
  Ok (set_construct self procedure levels).

(** [__init__], lines 17-19: [self] is the object as the initialiser of the
    base class leaves it; the configuration is unpacked as the keyword
    arguments of [_construct]. *)
Definition __init__ (self : model) (model_config : model_config)
    : result model :=
  _construct self model_config.

(** *** [_output_error], lines 100-120 *)

(** [torch.exp(t)]: the name [torch] is resolved first. *)
Definition torch_exp (t : T) : result T :=
  load_global "torch" ;;; Ok (exp t).

(** [torch.cat(ts, dim=dim)]. *)
Definition torch_cat (ts : list T) (dim : nat) : result T :=
  load_global "torch" ;;; Ok (cat ts dim).

(** [a - b] on two tensors: the shapes must broadcast. *)
Definition tensor_sub (a b : T) : result T :=
  if broadcastable (shape a) (shape b)
  then Ok (sub a b)
  else Raise RuntimeError.

(** Lines 109-110: a 2-D observation gets the sample axis of the mean. *)
Definition broadcast_observation (observation : T) (n_samples : nat) : T :=
  if (List.length (shape (data observation)) =? 2)%nat
  then repeat (unsqueeze observation 1) [1; n_samples; 1]%nat
  else observation.

Definition _output_error (self : model) (observation : T) : result T :=
  let output_mean := detach (mean (output_dist self)) in
  n_samples <- subscript (shape (data output_mean)) 1 ;;
  let observation := broadcast_observation observation n_samples in
  n_error <-
    match dist_family (output_dist self) with
    | Normal =>
        let output_log_var := detach (log_var (output_dist self)) in
        residual <- tensor_sub observation output_mean ;;
        variance <- torch_exp (add_scalar output_log_var (1 # 10000000)) ;;
        Ok (div residual variance)
    | Bernoulli => Raise NotImplementedError
    | Multinomial => Raise NotImplementedError
    end ;;
  Ok (mean_dim n_error 1).

(** *** [_get_encoding_form], lines 74-98 *)

Definition encoding_observation (self : model) (observation : T)
    (encoding : list T) : result (list T) :=
  if py_in "observation" (inference_procedure self)
  then Ok (encoding ++ [sub_scalar observation (1 # 2)])
  else Ok encoding.

Definition encoding_gradient (self : model) (encoding : list T)
    : result (list T) :=
  if py_in "gradient" (inference_procedure self)
  then
    bottom <- subscript (latent_levels self) 0 ;;
    let grads := approx_posterior_gradients bottom in
    grads <- torch_cat (map LayerNorm grads) 1 ;;
    bottom <- subscript (latent_levels self) 0 ;;
    let params := approx_posterior_parameters bottom in
    params <- torch_cat (map LayerNorm params) 1 ;;
    grads_params <- torch_cat [grads; params] 1 ;;
    Ok (encoding ++ [grads_params])
  else Ok encoding.

Definition encoding_error (self : model) (observation : T)
    (encoding : list T) : result (list T) :=
  if py_in "error" (inference_procedure self)
  then
    output_error <- _output_error self observation ;;
    bottom <- subscript (latent_levels self) 0 ;;
    let errors := [output_error; latent_error bottom] in
    errors <- torch_cat (map LayerNorm errors) 1 ;;
    bottom <- subscript (latent_levels self) 0 ;;
    let params := approx_posterior_parameters bottom in
    params <- torch_cat (map LayerNorm params) 1 ;;
    errors_params <- torch_cat [errors; params] 1 ;;
    Ok (encoding ++ [errors_params])
  else Ok encoding.

Definition _get_encoding_form (self : model) (observation : T) : result T :=
  let encoding := [] in
  encoding <- encoding_observation self observation encoding ;;
  encoding <- encoding_gradient self encoding ;;
  encoding <- encoding_error self observation encoding ;;
  match encoding with
  | [only] => Ok only
  | _ => torch_cat encoding 1
  end.

(** *** [infer], lines 122-132 *)

(** [for level in self.latent_levels: encoding = level.infer(encoding)];
    [done] holds the levels already visited, in order. *)
Fixpoint infer_loop (levels done : list L) (encoding : T) : list L * T :=
  match levels with
  | [] => (done, encoding)
  | level :: rest =>
      let '(level', encoding') := level_infer level encoding in
      infer_loop rest (done ++ [level']) encoding'
  end.

Definition infer (self : model) (observation : T) : result model :=
  encoding <- _get_encoding_form self observation ;;
  let '(levels, _) := infer_loop (latent_levels self) [] encoding in
  Ok (set_latent_levels self levels).

(** *** [generate], lines 134-149 *)

(** [for level in self.latent_levels[::-1]: decoding = level.generate(...)].
    [reversed] is the reversed list still to visit; a visited level goes to
    the front of [done], which restores the order of [latent_levels]. *)
Fixpoint generate_loop (gen : bool) (n_samples : Z) (reversed done : list L)
    (decoding : option T) (g : G) : list L * option T * G :=
  match reversed with
  | [] => (done, decoding, g)
  | level :: rest =>
      let '(level', decoding', g') :=
        level_generate level decoding gen n_samples g in
      generate_loop gen n_samples rest (level' :: done) (Some decoding') g'
  end.

Definition generate (self : model) (gen : bool) (n_samples : Z) (g : G)
    : T * model * G :=
  let decoding := None in
  let '(levels, decoding, g) :=
    generate_loop gen n_samples (rev (latent_levels self)) [] decoding g in
  let self := set_latent_levels self levels in
  let decoding := forward (output_network self) decoding in
  let dist := output_dist self in
  let dist :=
    {| dist_family := dist_family dist;
       mean := forward (output_mean self) (Some decoding);
       log_var := log_var dist |} in
  let dist :=
    match dist_family dist with
    | Normal =>
        {| dist_family := dist_family dist;
           mean := mean dist;
           log_var := forward (output_log_var self) (Some decoding) |}
    | _ => dist
    end in
  let self := set_output_dist self dist in
  let '(drawn, g) := sample (output_dist self) g in
  (drawn, self, g).

(** *** [re_init], lines 151-157 *)

(** [for level in self.latent_levels: level.latent.re_init()]. *)
Fixpoint re_init_loop (levels : list L) : list L :=
  match levels with
  | [] => []
  | level :: rest => latent_re_init level :: re_init_loop rest
  end.

Definition re_init (self : model) (g : G) : model * G :=
  let '(_, self, g) := generate self true 1 g in
  (set_latent_levels self (re_init_loop (latent_levels self)), g).

(** *** [inference_parameters] and [generative_parameters], lines 159-179 *)

(** [for level in self.latent_levels: params.extend(list(level.f()))]. *)
Fixpoint extend_loop (f : L -> list param) (levels : list L)
    (params : list param) : result (list param) :=
  match levels with
  | [] => Ok params
  | level :: rest =>
      more <- py_list (Iterable (f level)) ;;
      extend_loop f rest (params ++ more)
  end.

Definition inference_parameters (self : model) : result (list param) :=
  let params := [] in
  extend_loop level_inference_parameters (latent_levels self) params.

Definition generative_parameters (self : model) : result (list param) :=
  let params := [] in
  params <- extend_loop level_generative_parameters (latent_levels self)
              params ;;
  more <- py_list (Iterable (parameters (output_network self) tt)) ;;
  let params := params ++ more in
  more <- py_list (BoundMethod (parameters (output_mean self))) ;;
  let params := params ++ more in
  match dist_family (output_dist self) with
  | Normal =>
      more <- py_list (Iterable (parameters (output_log_var self) tt)) ;;
      Ok (params ++ more)
  | _ => Ok params
  end.

End Model.

(** ** The specification's reading of the passes *)

Section Passes.

Context {T L G : Type} `{LevelL : LatentLevel T L G}.

(** The generative pass as the specification words it: a level consumes the
    decoding produced by the levels above it, the topmost one consumes
    [seed]; index 0 is the bottom level. *)
Fixpoint top_down (gen : bool) (n_samples : Z) (levels : list L)
    (seed : option T) (g : G) : list L * option T * G :=
  match levels with
  | [] => ([], seed, g)
  | level :: above =>
      let '(above', decoding, g1) := top_down gen n_samples above seed g in
      let '(level', decoding', g2) :=
        level_generate level decoding gen n_samples g1 in
      (level' :: above', Some decoding', g2)
  end.

(** The inference pass: a level consumes the encoding of the level below. *)
Fixpoint bottom_up (levels : list L) (encoding : T) : list L * T :=
  match levels with
  | [] => ([], encoding)
  | level :: above =>
      let '(level', encoding') := level_infer level encoding in
      let '(above', top) := bottom_up above encoding' in
      (level' :: above', top)
  end.

End Passes.

(** The modes of [inference_input_form], in the order the code tests them,
    and the ones a procedure activates. *)
Definition modes : list string := ["observation"; "gradient"; "error"].

Definition active_modes (procedure : list string) : list string :=
  filter (fun mode => py_in mode procedure) modes.

(** [cfg] with other [n_layers_inf] and [n_layers_gen]. *)
Definition with_n_layers (cfg : model_config) (layers_inf layers_gen : list Z)
    : model_config :=
  {| inference_input_form := inference_input_form cfg;
     constant_variances_gen := constant_variances_gen cfg;
     n_latent := n_latent cfg;
     n_layers_inf := layers_inf;
     n_layers_gen := layers_gen;
     n_units_inf := n_units_inf cfg;
     n_units_gen := n_units_gen cfg;
     non_linearity_inf := non_linearity_inf cfg;
     non_linearity_gen := non_linearity_gen cfg;
     connection_type_inf := connection_type_inf cfg;
     connection_type_gen := connection_type_gen cfg;
     batch_norm_inf := batch_norm_inf cfg;
     batch_norm_gen := batch_norm_gen cfg |}.

(** ** A symbolic instance of the collaborators

    An instance of the interfaces in which a tensor is the expression that
    produced it, together with its shape: enough to run the model's control
    flow on concrete inputs and to read the data flow off the result. *)

Module Symbolic.

#[warnings="-register-all"]
Inductive tensor : Type :=
| Input (name : string) (dims : list nat)
| Output_of (callee : string) (argument : option tensor) (dims : list nat)
| Detached (t : tensor)
| Minus_scalar (t : tensor) (c : Q)
| Plus_scalar (t : tensor) (c : Q)
| Minus (a b : tensor)
| Over (a b : tensor)
| Unsqueezed (t : tensor) (dim : nat)
| Repeated (t : tensor) (reps : list nat)
| Mean_over (t : tensor) (dim : nat)
| Concatenated (ts : list tensor) (dim : nat)
| Exponential (t : tensor)
| Normalized (t : tensor).

(** Broadcasting of two shapes, aligned on the last axis (given reversed). *)
Fixpoint broadcast_rev (a b : list nat) : list nat :=
  match a, b with
  | [], _ => b
  | _, [] => a
  | x :: a', y :: b' => Nat.max x y :: broadcast_rev a' b'
  end.

Definition broadcast (a b : list nat) : list nat :=
  rev (broadcast_rev (rev a) (rev b)).

Definition insert_axis (s : list nat) (dim : nat) : list nat :=
  firstn dim s ++ 1%nat :: skipn dim s.

Fixpoint tile (s reps : list nat) : list nat :=
  match s, reps with
  | x :: s', r :: reps' => (x * r)%nat :: tile s' reps'
  | _, _ => []
  end.

Definition drop_axis (s : list nat) (dim : nat) : list nat :=
  firstn dim s ++ skipn (S dim) s.

Definition concat_axis (ss : list (list nat)) (dim : nat) : list nat :=
  match ss with
  | [] => []
  | s :: _ =>
      firstn dim s ++ list_sum (map (fun s' => nth dim s' 0%nat) ss)
        :: skipn (S dim) s
  end.

(** The shape of a symbolic tensor. *)
Fixpoint dims_of (t : tensor) : list nat :=
  match t with
  | Input _ dims => dims
  | Output_of _ _ dims => dims
  | Detached t => dims_of t
  | Minus_scalar t _ => dims_of t
  | Plus_scalar t _ => dims_of t
  | Minus a b => broadcast (dims_of a) (dims_of b)
  | Over a b => broadcast (dims_of a) (dims_of b)
  | Unsqueezed t dim => insert_axis (dims_of t) dim
  | Repeated t reps => tile (dims_of t) reps
  | Mean_over t dim => drop_axis (dims_of t) dim
  | Concatenated ts dim => concat_axis (map dims_of ts) dim
  | Exponential t => dims_of t
  | Normalized t => dims_of t
  end.

#[global] Instance symbolic_torch : Torch tensor := {|
  data t := t;
  shape := dims_of;
  detach := Detached;
  sub_scalar := Minus_scalar;
  add_scalar := Plus_scalar;
  sub := Minus;
  div := Over;
  unsqueeze := Unsqueezed;
  repeat := Repeated;
  mean_dim := Mean_over;
  cat := Concatenated;
  exp := Exponential
|}.

#[global] Instance symbolic_norm : Normalisation tensor := {|
  LayerNorm := Normalized
|}.

(** A level keeps its name, its configuration and whether its latent
    variable is in the initial state. *)
Record level : Type := {
  name : string;
  config : level_config;
  initial : bool
}.

Definition width (n : Z) : nat := Z.to_nat n.

Definition batch_of (t : option tensor) : nat :=
  match t with
  | Some t => hd 1%nat (dims_of t)
  | None => 1%nat
  end.

Definition latent_tensor (l : level) (what : string) : tensor :=
  Input (name l ++ what)
    [1%nat; width (n_variables (level_latent_config (config l)))].

#[global] Instance symbolic_level : LatentLevel tensor level nat := {|
  FullyConnectedLatentLevel c :=
    {| name := "level"; config := c; initial := true |};
  level_infer l encoding :=
    ({| name := name l; config := config l; initial := false |},
     Output_of (name l ++ ".infer") (Some encoding)
       [batch_of (Some encoding);
        width (n_units (inference_config (config l)))]);
  level_generate l decoding gen n_samples g :=
    (l,
     Output_of (name l ++ ".generate") decoding
       [batch_of decoding; width n_samples;
        width (n_units (generative_config (config l)))],
     S g);
  approx_posterior_gradients l :=
    [latent_tensor l ".mean.grad"; latent_tensor l ".log_var.grad"];
  approx_posterior_parameters l :=
    [latent_tensor l ".mean"; latent_tensor l ".log_var"];
  latent_error l := latent_tensor l ".error";
  latent_re_init l :=
    {| name := name l; config := config l; initial := true |};
  level_inference_parameters _ := [];
  level_generative_parameters _ := []
|}.

#[global] Instance symbolic_reset
    : LatentReset (T := tensor) (L := level) (G := nat) := {|
  latent_initial l := initial l = true;
  latent_re_init_initial l := eq_refl
|}.

#[global] Instance symbolic_sampling : Sampling tensor nat := {|
  sample d g := (Output_of "sample" (Some (mean d)) (dims_of (mean d)), S g)
|}.

(** A dense network: the last axis becomes [out]. *)
Definition dense (callee : string) (out : nat) (ps : list param)
    : nn_Module tensor :=
  {| forward decoding :=
       Output_of callee decoding
         match decoding with
         | Some t => removelast (dims_of t) ++ [out]
         | None => [out]
         end;
     parameters _ := ps |}.

(** A model for 784-pixel observations, batch size 8, one sample. *)
Definition mnist_model (procedure : list string) (levels : list level)
    (fam : family) : FullyConnectedModel tensor level :=
  {| inference_procedure := procedure;
     latent_levels := levels;
     output_network := dense "output_network" 512 [1; 2]%positive;
     output_mean := dense "output_mean" 784 [3; 4]%positive;
     output_log_var := dense "output_log_var" 784 [5; 6]%positive;
     output_dist :=
       {| dist_family := fam;
          mean := Input "mean" [8; 1; 784]%nat;
          log_var := Input "log_var" [8; 1; 784]%nat |} |}.

Definition mnist_observation : tensor := Input "observation" [8; 784]%nat.

(** A single-level architecture with the sizes of
    [cfg/mnist/single_level/standard]: one level of 64 latent variables,
    generative lists with the extra top entry. *)
Definition single_level_config : model_config :=
  {| inference_input_form := ["observation"];
     constant_variances_gen := true;
     n_latent := [64%Z];
     n_layers_inf := [2%Z];
     n_layers_gen := [2%Z; 1%Z];
     n_units_inf := [512%Z];
     n_units_gen := [512%Z; 1%Z];
     non_linearity_inf := "elu";
     non_linearity_gen := "elu";
     connection_type_inf := "highway";
     connection_type_gen := "sequential";
     batch_norm_inf := false;
     batch_norm_gen := false |}.

(** The same lists with no latent level at all. *)
Definition no_level_config : model_config :=
  {| inference_input_form := ["observation"];
     constant_variances_gen := true;
     n_latent := [];
     n_layers_inf := [2%Z];
     n_layers_gen := [2%Z; 1%Z];
     n_units_inf := [512%Z];
     n_units_gen := [512%Z; 1%Z];
     non_linearity_inf := "elu";
     non_linearity_gen := "elu";
     connection_type_inf := "highway";
     connection_type_gen := "sequential";
     batch_norm_inf := false;
     batch_norm_gen := false |}.

(** The two levels of an architecture with [n_latent = [64, 32]],
    [n_units_inf = [512, 256]] and [n_units_gen = [512, 256, 1]], as
    [FullyConnectedLatentLevel] would hold them. *)
Definition bottom_level : level :=
  {| name := "level0";
     config :=
       {| level_latent_config :=
            {| latent_n_in := [512%Z; 256%Z];
               n_variables := 64%Z;
               latent_inference_procedure := ["observation"] |};
          level_inference_procedure := ["observation"];
          inference_config :=
            {| n_in := None; n_units := 512%Z; connection_type := "highway";
               non_linearity := "elu"; batch_norm := false |};
          generative_config :=
            {| n_in := Some 32%Z; n_units := 256%Z;
               connection_type := "sequential"; non_linearity := "elu";
               batch_norm := false |} |};
     initial := false |}.

Definition top_level : level :=
  {| name := "level1";
     config :=
       {| level_latent_config :=
            {| latent_n_in := [256%Z; 1%Z];
               n_variables := 32%Z;
               latent_inference_procedure := ["observation"] |};
          level_inference_procedure := ["observation"];
          inference_config :=
            {| n_in := None; n_units := 256%Z; connection_type := "highway";
               non_linearity := "elu"; batch_norm := false |};
          generative_config :=
            {| n_in := Some 1%Z; n_units := 1%Z;
               connection_type := "sequential"; non_linearity := "elu";
               batch_norm := false |} |};
     initial := false |}.

End Symbolic.

(** ** Keyword arguments and the shipped configuration *)

(** The values a configuration dictionary holds. *)
#[warnings="-register-all"]
Inductive pyval : Type :=
| PyNone
| PyBool (b : bool)
| PyInt (z : Z)
| PyFloat (q : Q)
| PyStr (s : string)
| PyList (items : list pyval).

(** A dictionary with string keys, as its items. *)
Definition dict : Type := list (string * pyval).

Definition dict_keys (d : dict) : list string := map fst d.

Fixpoint dict_get (d : dict) (key : string) : option pyval :=
  match d with
  | [] => None
  | (k, v) :: rest => if String.eqb key k then Some v else dict_get rest key
  end.

(** The parameters of [_construct] after [self], lines 21-24; none has a
    default. *)
Definition construct_parameters : list string :=
  [ "inference_input_form"; "constant_variances_gen"; "n_latent";
    "n_layers_inf"; "n_layers_gen"; "n_units_inf"; "n_units_gen";
    "non_linearity_inf"; "non_linearity_gen"; "connection_type_inf";
    "connection_type_gen"; "batch_norm_inf"; "batch_norm_gen" ].

(** The values of the parameters, in order; a parameter the dictionary does
    not give is a missing argument. *)
Fixpoint bind_parameters (parameters : list string) (kwargs : dict)
    : result (list pyval) :=
  match parameters with
  | [] => Ok []
  | parameter :: rest =>
      match dict_get kwargs parameter with
      | None => Raise TypeError
      | Some v =>
          vs <- bind_parameters rest kwargs ;;
          Ok (v :: vs)
      end
  end.

(** Binding the call [f( **kwargs )], line 19, for a function whose
    parameters are [parameters]: a key that names no parameter is an
    unexpected keyword argument. *)
Definition bind_keywords (parameters : list string) (kwargs : dict)
    : result (list pyval) :=
  if forallb (fun key => py_in key parameters) (dict_keys kwargs)
  then bind_parameters parameters kwargs
  else Raise TypeError.

(** [cfg/mnist/single_level/standard/config.py]. *)
Module Config.

Definition train_config : dict :=
  [ ("dataset", PyStr "MNIST");
    ("output_distribution", PyStr "bernoulli");
    ("batch_size", PyInt 64);
    ("n_samples", PyInt 1);
    ("n_iterations", PyInt 1);
    ("encoder_optimizer", PyStr "adam");
    ("decoder_optimizer", PyStr "adam");
    ("encoder_learning_rate", PyFloat (2 # 10000));
    ("decoder_learning_rate", PyFloat (2 # 10000));
    ("average_gradient", PyBool true);
    ("encoder_decoder_train_multiple", PyInt 1);
    ("kl_min", PyInt 0);
    ("kl_warm_up", PyBool false);
    ("cuda_device", PyInt 0);
    ("display_iter", PyInt 50);
    ("eval_iter", PyInt 500);
    ("resume_experiment", PyNone) ].

Definition arch : dict :=
  [ ("model_form", PyStr "dense");
    ("encoder_type", PyStr "inference_model");
    ("inference_model_type", PyStr "feedforward");
    ("encoding_form", PyList [PyStr "posterior"]);
    ("variable_update_form", PyStr "direct");
    ("concat_variables", PyBool false);
    ("posterior_form", PyStr "gaussian");
    ("whiten_input", PyBool false);
    ("constant_prior_variances", PyBool true);
    ("single_output_variance", PyBool false);
    ("learn_top_prior", PyBool false);
    ("top_size", PyInt 1);
    ("n_latent", PyList [PyInt 64]);
    ("n_det_enc", PyList [PyInt 0]);
    ("n_det_dec", PyList [PyInt 0]);
    ("n_layers_enc", PyList [PyInt 2; PyInt 0]);
    ("n_layers_dec", PyList [PyInt 2; PyInt 1]);
    ("n_units_enc", PyList [PyInt 512; PyInt 0]);
    ("n_units_dec", PyList [PyInt 512; PyInt 1]);
    ("non_linearity_enc", PyStr "elu");
    ("non_linearity_dec", PyStr "elu");
    ("connection_type_enc", PyStr "highway");
    ("connection_type_dec", PyStr "sequential");
    ("batch_norm_enc", PyBool false);
    ("batch_norm_dec", PyBool false);
    ("weight_norm_enc", PyBool false);
    ("weight_norm_dec", PyBool false);
    ("dropout_enc", PyFloat 0);
    ("dropout_dec", PyFloat 0) ].

End Config.

(** An architecture of two levels with consistent lists. *)
Definition two_level_config : model_config :=
  {| inference_input_form := ["observation"];
     constant_variances_gen := true;
     n_latent := [64%Z; 32%Z];
     n_layers_inf := [2%Z; 2%Z];
     n_layers_gen := [2%Z; 2%Z; 1%Z];
     n_units_inf := [512%Z; 256%Z];
     n_units_gen := [512%Z; 256%Z; 1%Z];
     non_linearity_inf := "elu";
     non_linearity_gen := "elu";
     connection_type_inf := "highway";
     connection_type_gen := "sequential";
     batch_norm_inf := false;
     batch_norm_gen := false |}.

(** A model whose output mean is a flat vector of 784 pixels, with no
    sample axis. *)
Definition flat_mean_model (fam : family)
    : FullyConnectedModel Symbolic.tensor Symbolic.level :=
  {| inference_procedure := ["error"];
     latent_levels := [Symbolic.bottom_level];
     output_network := Symbolic.dense "output_network" 512 [1; 2]%positive;
     output_mean := Symbolic.dense "output_mean" 784 [3; 4]%positive;
     output_log_var := Symbolic.dense "output_log_var" 784 [5; 6]%positive;
     output_dist :=
       {| dist_family := fam;
          mean := Symbolic.Input "mean" [784]%nat;
          log_var := Symbolic.Input "log_var" [784]%nat |} |}.

(** An observation one pixel wider than the 784 of the output mean. *)
Definition wide_observation : Symbolic.tensor :=
  Symbolic.Input "observation" [8; 785]%nat.

(** The two levels once [infer] has visited them. *)
Definition inferred_levels : list Symbolic.level :=
  [ {| Symbolic.name := "level0";
       Symbolic.config := Symbolic.config Symbolic.bottom_level;
       Symbolic.initial := false |};
    {| Symbolic.name := "level1";
       Symbolic.config := Symbolic.config Symbolic.top_level;
       Symbolic.initial := false |} ].

(** * Properties *)

(** ** The result monad and subscripts *)

Lemma bind_Ok_inv (A B : Type) (c : result A) (k : A -> result B) (b : B) :
  bind c k = Ok b -> exists a, c = Ok a /\ k a = Ok b.
Proof.
  destruct c as [a | e]; simpl; intros H.
  - exists a. split; [reflexivity | exact H].
  - discriminate H.
Qed.

Lemma bind_Raise_inv (A B : Type) (c : result A) (k : A -> result B) (e : exn) :
  bind c k = Raise e -> c = Raise e \/ exists a, c = Ok a /\ k a = Raise e.
Proof.
  destruct c as [a | e']; simpl; intros H.
  - right. exists a. split; [reflexivity | exact H].
  - left. injection H as ->. reflexivity.
Qed.

Lemma subscript_Raise (A : Type) (xs : list A) (i : nat) (e : exn) :
  subscript xs i = Raise e -> e = IndexError.
Proof.
  unfold subscript. destruct (nth_error xs i); congruence.
Qed.

Lemma subscript_out_of_range (A : Type) (xs : list A) (i : nat) :
  (List.length xs <= i)%nat -> subscript xs i = Raise IndexError.
Proof.
  intros H. unfold subscript.
  apply nth_error_None in H. rewrite H. reflexivity.
Qed.

Lemma subscript_Ok (A : Type) (xs : list A) (i : nat) (x : A) :
  subscript xs i = Ok x <-> nth_error xs i = Some x.
Proof.
  unfold subscript. destruct (nth_error xs i); split; congruence.
Qed.

Lemma torch_is_unbound : load_global "torch" = Raise (NameError "torch").
Proof. reflexivity. Qed.

(** ** Construction *)

(** Peel one [bind] of a hypothesis [bind c k = Raise e] whose first call is
    a subscript. *)
Ltac peel_subscript H :=
  apply bind_Raise_inv in H;
  destruct H as [H | [? [_ H]]];
  [ exact (subscript_Raise _ _ H) | cbv beta zeta in H ].

Lemma build_level_config_Raise procedure cfg level_ind e :
  build_level_config procedure cfg level_ind = Raise e -> e = IndexError.
Proof.
  unfold build_level_config. intros H.
  do 6 peel_subscript H.
  discriminate H.
Qed.

(** Below the top, the generative configuration is the one the loop body
    writes: the latent size and the generative units one index up. *)
Lemma build_level_config_generative procedure cfg level_ind level_cfg :
  build_level_config procedure cfg level_ind = Ok level_cfg ->
  exists above units,
    nth_error (n_latent cfg) (level_ind + 1) = Some above /\
    nth_error (n_units_gen cfg) (level_ind + 1) = Some units /\
    n_in (generative_config level_cfg) = Some above /\
    n_units (generative_config level_cfg) = units.
Proof.
  unfold build_level_config. intros H.
  apply bind_Ok_inv in H. destruct H as [u1 [_ H]].
  apply bind_Ok_inv in H. destruct H as [u2 [_ H]].
  apply bind_Ok_inv in H. destruct H as [v [_ H]].
  apply bind_Ok_inv in H. destruct H as [u3 [_ H]].
  apply bind_Ok_inv in H. destruct H as [above [Ha H]].
  apply bind_Ok_inv in H. destruct H as [units [Hu H]].
  exists above, units.
  apply subscript_Ok in Ha. apply subscript_Ok in Hu.
  injection H as <-. simpl. auto.
Qed.

(** The subscript [n_latent[level_ind + 1]] has no entry at the top level. *)
Lemma build_level_config_top procedure cfg level_ind :
  (List.length (n_latent cfg) <= level_ind + 1)%nat ->
  build_level_config procedure cfg level_ind = Raise IndexError.
Proof.
  intros Htop.
  destruct (build_level_config procedure cfg level_ind) as [level_cfg | e] eqn:E.
  - apply build_level_config_generative in E.
    destruct E as [above [units [Ha _]]].
    apply nth_error_None in Htop. congruence.
  - f_equal. exact (build_level_config_Raise _ _ _ E).
Qed.

Section Construction.

Context {T L G : Type}.
Context `{TorchT : Torch T} `{LevelL : LatentLevel T L G}.

Lemma construct_loop_Raise procedure cfg level_inds (levels : list L) e :
  construct_loop procedure cfg level_inds levels = Raise e -> e = IndexError.
Proof.
  revert levels. induction level_inds as [| i rest IH]; simpl; intros levels H.
  - discriminate H.
  - apply bind_Raise_inv in H. destruct H as [H | [level_cfg [_ H]]].
    + exact (build_level_config_Raise _ _ _ H).
    + exact (IH _ H).
Qed.

Lemma construct_loop_top procedure cfg level_inds (levels : list L) top :
  In top level_inds ->
  (List.length (n_latent cfg) <= top + 1)%nat ->
  construct_loop procedure cfg level_inds levels = Raise IndexError.
Proof.
  intros Hin Htop.
  destruct (construct_loop procedure cfg level_inds levels) as [built | e] eqn:E.
  - exfalso. revert levels E.
    induction level_inds as [| i rest IH]; simpl; intros levels E.
    + destruct Hin.
    + apply bind_Ok_inv in E. destruct E as [level_cfg [Hcfg E]].
      destruct Hin as [-> | Hin].
      * rewrite (build_level_config_top _ _ _ Htop) in Hcfg. discriminate Hcfg.
      * exact (IH Hin _ E).
  - f_equal. exact (construct_loop_Raise _ _ _ _ E).
Qed.

Lemma construct_loop_with_n_layers procedure cfg layers_inf layers_gen
    level_inds (levels : list L) :
  construct_loop procedure (with_n_layers cfg layers_inf layers_gen)
    level_inds levels
  = construct_loop procedure cfg level_inds levels.
Proof.
  revert levels. induction level_inds as [| i rest IH]; simpl; intros levels.
  - reflexivity.
  - change (build_level_config procedure
              (with_n_layers cfg layers_inf layers_gen) i)
      with (build_level_config procedure cfg i).
    destruct (build_level_config procedure cfg i); simpl; [apply IH | reflexivity].
Qed.

(** C1.  The claim: with consistent lists, construction builds one level per
    entry of [n_latent].  The code: whenever [n_latent] has an entry, the
    last turn of the loop reads [n_latent[level_ind + 1]] one past the end,
    so [_construct] raises [IndexError] and builds no model. *)
Theorem construct_nonempty_raises (self : FullyConnectedModel T L)
    (cfg : model_config) :
  n_latent cfg <> [] -> _construct self cfg = Raise IndexError.
Proof.
  intros Hne. unfold _construct.
  assert (Hlen : (0 < List.length (n_latent cfg))%nat).
  { destruct (n_latent cfg); [congruence | simpl; lia]. }
  rewrite (@construct_loop_top _ cfg _ []
             (List.length (n_latent cfg) - 1)%nat).
  - reflexivity.
  - apply in_seq. lia.
  - lia.
Qed.

(** C2, as the code has it.  [_construct] checks no length: the only
    exception it raises is the [IndexError] of a subscript, its result does
    not depend on [n_layers_inf] and [n_layers_gen], and with an empty
    [n_latent] it succeeds with no level whatever the other lists hold. *)
Theorem construct_checks_no_length (self : FullyConnectedModel T L)
    (cfg : model_config) :
  (forall e, _construct self cfg = Raise e -> e = IndexError) /\
  (forall layers_inf layers_gen,
      _construct self (with_n_layers cfg layers_inf layers_gen)
      = _construct self cfg) /\
  (n_latent cfg = [] ->
   _construct self cfg = Ok (set_construct self (inference_input_form cfg) [])).
Proof.
  split; [| split].
  - intros e H. unfold _construct in H.
    apply bind_Raise_inv in H. destruct H as [H | [levels [_ H]]].
    + exact (construct_loop_Raise _ _ _ _ H).
    + discriminate H.
  - intros layers_inf layers_gen. unfold _construct.
    change (inference_input_form (with_n_layers cfg layers_inf layers_gen))
      with (inference_input_form cfg).
    change (n_latent (with_n_layers cfg layers_inf layers_gen))
      with (n_latent cfg).
    rewrite construct_loop_with_n_layers. reflexivity.
  - intros Hnil. unfold _construct. rewrite Hnil. reflexivity.
Qed.

End Construction.

Section Methods.

Context {T L G : Type}.
Context `{TorchT : Torch T} `{NormT : Normalisation T}
        `{LevelL : LatentLevel T L G} `{SamplingT : Sampling T G}.

Implicit Types (self : FullyConnectedModel T L) (observation : T).

(** ** Parameter accessors *)

Lemma extend_loop_Ok (f : L -> list param) (levels : list L)
    (params : list param) :
  extend_loop f levels params = Ok (params ++ flat_map f levels).
Proof.
  revert params. induction levels as [| level rest IH]; simpl; intros params.
  - rewrite app_nil_r. reflexivity.
  - rewrite IH, <- app_assoc. reflexivity.
Qed.

(** The inference partition is the levels' inference parameters, bottom
    level first. *)
Lemma inference_parameters_Ok self :
  inference_parameters self
  = Ok (flat_map level_inference_parameters (latent_levels self)).
Proof.
  unfold inference_parameters. rewrite extend_loop_Ok. reflexivity.
Qed.

(** C3.  The claim: the two accessors return a partition of the trainable
    parameters.  The code: line 176 hands [self.output_mean.parameters], the
    method itself, to [list], where lines 175 and 178 call it; for every
    model [generative_parameters] raises [TypeError] and returns nothing. *)
Theorem generative_parameters_raises self :
  generative_parameters self = Raise TypeError.
Proof.
  unfold generative_parameters. rewrite extend_loop_Ok. reflexivity.
Qed.

(** ** The output error *)

Lemma torch_exp_Raise (t : T) : torch_exp t = Raise (NameError "torch").
Proof. reflexivity. Qed.

Lemma torch_cat_Raise (ts : list T) (dim : nat) :
  torch_cat ts dim = Raise (NameError "torch").
Proof. reflexivity. Qed.

(** Whatever the family, no path of [_output_error] reaches its [return]. *)
Lemma output_error_never_returns self observation (v : T) :
  _output_error self observation <> Ok v.
Proof.
  unfold _output_error.
  destruct (subscript _ 1) as [n_samples | e]; simpl; [| discriminate].
  destruct (dist_family (output_dist self)); simpl; try discriminate.
  destruct (tensor_sub _ _); simpl; discriminate.
Qed.

(** Past line 108 the exception is settled by the family and, for Normal,
    by whether the subtraction of line 113 broadcasts. *)
Lemma output_error_family self observation (n_samples : nat) :
  nth_error (shape (data (detach (mean (output_dist self))))) 1
  = Some n_samples ->
  _output_error self observation
  = match dist_family (output_dist self) with
    | Normal =>
        Raise
          (if broadcastable
                (shape (broadcast_observation observation n_samples))
                (shape (detach (mean (output_dist self))))
           then NameError "torch"
           else RuntimeError)
    | Bernoulli | Multinomial => Raise NotImplementedError
    end.
Proof.
  intros Hn. unfold _output_error.
  apply subscript_Ok in Hn. rewrite Hn. simpl.
  destruct (dist_family (output_dist self)); try reflexivity.
  unfold tensor_sub.
  destruct (broadcastable _ _); reflexivity.
Qed.

Lemma output_error_no_samples self observation :
  (List.length (shape (data (detach (mean (output_dist self))))) <= 1)%nat ->
  _output_error self observation = Raise IndexError.
Proof.
  intros H. unfold _output_error.
  rewrite (subscript_out_of_range _ H). reflexivity.
Qed.

Lemma sample_axis (t : T) :
  (2 <= List.length (shape t))%nat -> exists n, nth_error (shape t) 1 = Some n.
Proof.
  intros H. destruct (nth_error (shape t) 1) as [n |] eqn:E.
  - exists n. reflexivity.
  - apply nth_error_None in E. lia.
Qed.

(** C5, as the code has it.  With a Bernoulli or Multinomial output
    distribution [_output_error] returns no value.  Line 108 reads the
    number of samples off the mean before the family is looked at: the
    exception is [NotImplementedError] when the mean has its sample axis,
    and the [IndexError] of [shape[1]] when it has not. *)
Theorem output_error_unimplemented self observation :
  dist_family (output_dist self) = Bernoulli
  \/ dist_family (output_dist self) = Multinomial ->
  (forall v, _output_error self observation <> Ok v) /\
  ((2 <= List.length (shape (data (detach (mean (output_dist self))))))%nat ->
   _output_error self observation = Raise NotImplementedError) /\
  ((List.length (shape (data (detach (mean (output_dist self))))) <= 1)%nat ->
   _output_error self observation = Raise IndexError).
Proof.
  intros Hfam. split; [| split].
  - intros v. apply output_error_never_returns.
  - intros Hrank. destruct (sample_axis _ Hrank) as [n Hn].
    rewrite (output_error_family self observation Hn).
    destruct Hfam as [-> | ->]; reflexivity.
  - apply output_error_no_samples.
Qed.

(** C9.  The claim: with a Normal output distribution [_output_error]
    returns the residual divided by the variance, averaged over the
    samples.  The code: the division needs [torch.exp] and [torch] is not
    bound, so no value is returned.  Once line 108 has read the number of
    samples off the mean, the exception is the [NameError] of [torch.exp]
    when the subtraction of line 113 broadcasts, and the [RuntimeError] of
    that subtraction when it does not. *)
Theorem output_error_normal_raises self observation :
  dist_family (output_dist self) = Normal ->
  (forall v, _output_error self observation <> Ok v) /\
  ((2 <= List.length (shape (data (detach (mean (output_dist self))))))%nat ->
   let n_samples :=
     nth 1 (shape (data (detach (mean (output_dist self))))) 0%nat in
   _output_error self observation
   = Raise
       (if broadcastable
             (shape (broadcast_observation observation n_samples))
             (shape (detach (mean (output_dist self))))
        then NameError "torch"
        else RuntimeError)).
Proof.
  intros Hfam. split.
  - intros v. apply output_error_never_returns.
  - intros Hrank. destruct (sample_axis _ Hrank) as [n Hn].
    rewrite (output_error_family self observation Hn), Hfam.
    cbv zeta. rewrite (nth_error_nth _ _ 0%nat Hn). reflexivity.
Qed.

(** ** The encoding *)

Lemma encoding_gradient_Raise self (encoding : list T) :
  py_in "gradient" (inference_procedure self) = true ->
  encoding_gradient self encoding
  = match latent_levels self with
    | [] => Raise IndexError
    | _ :: _ => Raise (NameError "torch")
    end.
Proof.
  intros Hg. unfold encoding_gradient. rewrite Hg.
  destruct (latent_levels self); reflexivity.
Qed.

Lemma encoding_error_Raise self observation (encoding : list T) :
  py_in "error" (inference_procedure self) = true ->
  exists e,
    _output_error self observation = Raise e /\
    encoding_error self observation encoding = Raise e.
Proof.
  intros He. unfold encoding_error. rewrite He.
  destruct (_output_error self observation) as [v | e] eqn:E.
  - exfalso. exact (output_error_never_returns _ _ E).
  - exists e. split; reflexivity.
Qed.

Lemma encoding_observation_Ok self observation (encoding : list T) :
  exists encoding',
    encoding_observation self observation encoding = Ok encoding'.
Proof.
  unfold encoding_observation.
  destruct (py_in "observation" (inference_procedure self)); eauto.
Qed.

(** With the mode [gradient] or [error], [_get_encoding_form] raises. *)
Lemma get_encoding_form_never_returns self observation (v : T) :
  py_in "gradient" (inference_procedure self) = true
  \/ py_in "error" (inference_procedure self) = true ->
  _get_encoding_form self observation <> Ok v.
Proof.
  intros Hmode. unfold _get_encoding_form.
  destruct (encoding_observation_Ok self observation []) as [enc ->]. simpl.
  destruct (py_in "gradient" (inference_procedure self)) eqn:Hg.
  - rewrite (encoding_gradient_Raise self enc Hg).
    destruct (latent_levels self); discriminate.
  - destruct Hmode as [Hmode | He]; [discriminate Hmode |].
    unfold encoding_gradient. rewrite Hg. simpl.
    destruct (encoding_error_Raise self observation enc He) as [e [_ ->]].
    discriminate.
Qed.

Lemma get_encoding_form_gradient self observation :
  py_in "gradient" (inference_procedure self) = true ->
  latent_levels self <> [] ->
  _get_encoding_form self observation = Raise (NameError "torch").
Proof.
  intros Hg Hne. unfold _get_encoding_form.
  destruct (encoding_observation_Ok self observation []) as [enc ->]. simpl.
  rewrite (encoding_gradient_Raise self enc Hg).
  destruct (latent_levels self); [congruence | reflexivity].
Qed.

Lemma get_encoding_form_error self observation (e : exn) :
  py_in "gradient" (inference_procedure self) = false ->
  py_in "error" (inference_procedure self) = true ->
  _output_error self observation = Raise e ->
  _get_encoding_form self observation = Raise e.
Proof.
  intros Hg He Hout. unfold _get_encoding_form.
  destruct (encoding_observation_Ok self observation []) as [enc ->]. simpl.
  unfold encoding_gradient. rewrite Hg. simpl.
  destruct (encoding_error_Raise self observation enc He) as [e' [Hout' ->]].
  simpl. congruence.
Qed.

Lemma active_modes_several (procedure : list string) :
  (1 < List.length (active_modes procedure))%nat ->
  py_in "gradient" procedure = true \/ py_in "error" procedure = true.
Proof.
  unfold active_modes, modes. simpl.
  destruct (py_in "gradient" procedure); [auto |].
  destruct (py_in "error" procedure); [auto |].
  destruct (py_in "observation" procedure); simpl; lia.
Qed.

(** C4, as the code has it.  The module never binds [torch].  With the mode
    [gradient] or [error] [_get_encoding_form] returns no value; with
    [gradient] and at least one latent level the exception is the
    [NameError] of the first [torch.cat]; with [error] and not [gradient] it
    is the exception [_output_error] raises.  For a Normal output
    distribution [_output_error] raises the [NameError] of [torch.exp] when
    line 113 gets that far: the mean has its sample axis and the observation,
    broadcast by lines 109-110, and the mean have shapes that broadcast in
    the subtraction. *)
Theorem torch_unbound_raises self observation :
  load_global "torch" = Raise (NameError "torch") /\
  (py_in "gradient" (inference_procedure self) = true
   \/ py_in "error" (inference_procedure self) = true ->
   forall v, _get_encoding_form self observation <> Ok v) /\
  (py_in "gradient" (inference_procedure self) = true ->
   latent_levels self <> [] ->
   _get_encoding_form self observation = Raise (NameError "torch")) /\
  (py_in "gradient" (inference_procedure self) = false ->
   py_in "error" (inference_procedure self) = true ->
   forall e, _output_error self observation = Raise e ->
             _get_encoding_form self observation = Raise e) /\
  (dist_family (output_dist self) = Normal ->
   forall n_samples,
     nth_error (shape (data (detach (mean (output_dist self))))) 1
     = Some n_samples ->
     broadcastable (shape (broadcast_observation observation n_samples))
       (shape (detach (mean (output_dist self)))) = true ->
     _output_error self observation = Raise (NameError "torch")).
Proof.
  split; [reflexivity |].
  split; [intros Hmode v; now apply get_encoding_form_never_returns |].
  split; [apply get_encoding_form_gradient |].
  split; [intros Hg He e; now apply get_encoding_form_error |].
  intros Hfam n Hn Hb.
  rewrite (output_error_family self observation Hn), Hfam, Hb. reflexivity.
Qed.

(** C6.  With [inference_input_form = ['observation']] the encoding is
    [observation - 0.5] itself: one entry, no concatenation. *)
Theorem get_encoding_form_observation self observation :
  inference_procedure self = ["observation"] ->
  _get_encoding_form self observation = Ok (sub_scalar observation (1 # 2)).
Proof.
  intros Hproc.
  unfold _get_encoding_form, encoding_observation, encoding_gradient,
    encoding_error.
  rewrite Hproc. reflexivity.
Qed.

(** C7.  The claim: several active modes are concatenated in the order
    observation, gradient, error.  The code: two active modes include
    [gradient] or [error], whose contribution is built with [torch.cat];
    [torch] is not bound and [_get_encoding_form] returns no value. *)
Theorem get_encoding_form_several_modes self observation :
  (1 < List.length (active_modes (inference_procedure self)))%nat ->
  exists e, _get_encoding_form self observation = Raise e.
Proof.
  intros Hmodes. apply active_modes_several in Hmodes.
  destruct (_get_encoding_form self observation) as [v | e] eqn:E.
  - exfalso. exact (get_encoding_form_never_returns self observation Hmodes E).
  - exists e. reflexivity.
Qed.

End Methods.

Section Passes_properties.

Context {T L G : Type}.
Context `{TorchT : Torch T} `{NormT : Normalisation T}
        `{LevelL : LatentLevel T L G} `{SamplingT : Sampling T G}.
Context `{ResetL : !LatentReset (T := T) (L := L) (G := G)}.

Implicit Types (self : FullyConnectedModel T L) (levels : list L).

(** ** The generative pass *)

Lemma generate_loop_app gen n_samples (first second done : list L)
    (decoding : option T) (g : G) :
  generate_loop gen n_samples (first ++ second) done decoding g
  = let '(done', decoding', g') :=
      generate_loop gen n_samples first done decoding g in
    generate_loop gen n_samples second done' decoding' g'.
Proof.
  revert done decoding g.
  induction first as [| level rest IH]; simpl; intros done decoding g.
  - reflexivity.
  - destruct (level_generate level decoding gen n_samples g)
      as [[level' decoding'] g'].
    apply IH.
Qed.

(** The loop over the reversed list is the top-down pass. *)
Lemma generate_loop_top_down gen n_samples levels (seed : option T) (g : G) :
  generate_loop gen n_samples (rev levels) [] seed g
  = top_down gen n_samples levels seed g.
Proof.
  induction levels as [| level above IH]; simpl.
  - reflexivity.
  - rewrite generate_loop_app, IH.
    destruct (top_down gen n_samples above seed g) as [[above' decoding] g1].
    simpl.
    destruct (level_generate level decoding gen n_samples g1)
      as [[level' decoding'] g2].
    reflexivity.
Qed.

(** The levels above are visited first, and what they decode seeds the
    levels below. *)
Lemma top_down_app gen n_samples (below above : list L) (seed : option T)
    (g : G) :
  top_down gen n_samples (below ++ above) seed g
  = let '(above', decoding, g1) := top_down gen n_samples above seed g in
    let '(below', decoding', g2) :=
      top_down gen n_samples below decoding g1 in
    (below' ++ above', decoding', g2).
Proof.
  induction below as [| level rest IH]; simpl.
  - destruct (top_down gen n_samples above seed g) as [[above' decoding] g1].
    reflexivity.
  - rewrite IH.
    destruct (top_down gen n_samples above seed g) as [[above' decoding] g1].
    destruct (top_down gen n_samples rest decoding g1)
      as [[rest' decoding'] g2].
    destruct (level_generate level decoding' gen n_samples g2)
      as [[level' decoding''] g3].
    reflexivity.
Qed.

Lemma top_down_length gen n_samples levels (seed : option T) (g : G) :
  List.length (fst (fst (top_down gen n_samples levels seed g)))
  = List.length levels.
Proof.
  induction levels as [| level above IH]; simpl.
  - reflexivity.
  - destruct (top_down gen n_samples above seed g) as [[above' decoding] g1].
    destruct (level_generate level decoding gen n_samples g1)
      as [[level' decoding'] g2].
    simpl in *. congruence.
Qed.

(** The loop of [infer] is the bottom-up pass. *)
Lemma infer_loop_bottom_up levels (done : list L) (encoding : T) :
  infer_loop levels done encoding
  = let '(visited, top) := bottom_up levels encoding in (done ++ visited, top).
Proof.
  revert done encoding.
  induction levels as [| level above IH]; simpl; intros done encoding.
  - rewrite app_nil_r. reflexivity.
  - destruct (level_infer level encoding) as [level' encoding'].
    rewrite IH.
    destruct (bottom_up above encoding') as [above' top].
    rewrite <- app_assoc. reflexivity.
Qed.

(** [generate] in one equation: the top-down pass, then the output
    network, the parameters of the output distribution and the sample. *)
Lemma generate_unfold self (gen : bool) (n_samples : Z) (g : G) :
  let '(levels, decoding, g1) :=
    top_down gen n_samples (latent_levels self) None g in
  let bottom := forward (output_network self) decoding in
  let dist :=
    {| dist_family := dist_family (output_dist self);
       mean := forward (output_mean self) (Some bottom);
       log_var :=
         match dist_family (output_dist self) with
         | Normal => forward (output_log_var self) (Some bottom)
         | Bernoulli | Multinomial => log_var (output_dist self)
         end |} in
  generate self gen n_samples g
  = (fst (sample dist g1),
     set_output_dist (set_latent_levels self levels) dist,
     snd (sample dist g1)).
Proof.
  unfold generate. rewrite generate_loop_top_down.
  destruct (top_down gen n_samples (latent_levels self) None g)
    as [[levels decoding] g1].
  simpl.
  destruct (dist_family (output_dist self)); simpl;
    match goal with
    | |- context [sample ?d ?r] => destruct (sample d r)
    end; reflexivity.
Qed.

(** C8.  [generate] is the top-down pass over the levels, seeded with
    [None] at the top, where [infer] visits them bottom-up; the bottom
    decoding goes through the output network and gives the mean, the
    log-variance is written exactly when the family is Normal, and the
    value returned is a sample of the updated output distribution. *)
Theorem generate_top_down self (gen : bool) (n_samples : Z) (g : G) :
  (forall encoding,
      infer_loop (latent_levels self) [] encoding
      = bottom_up (latent_levels self) encoding) /\
  let '(levels, decoding, g1) :=
    top_down gen n_samples (latent_levels self) None g in
  let bottom := forward (output_network self) decoding in
  let dist :=
    {| dist_family := dist_family (output_dist self);
       mean := forward (output_mean self) (Some bottom);
       log_var :=
         match dist_family (output_dist self) with
         | Normal => forward (output_log_var self) (Some bottom)
         | Bernoulli | Multinomial => log_var (output_dist self)
         end |} in
  generate self gen n_samples g
  = (fst (sample dist g1),
     set_output_dist (set_latent_levels self levels) dist,
     snd (sample dist g1)).
Proof.
  split.
  - intros encoding. rewrite infer_loop_bottom_up.
    destruct (bottom_up (latent_levels self) encoding). reflexivity.
  - apply generate_unfold.
Qed.

(** ** Re-initialisation *)

Lemma re_init_loop_map levels :
  re_init_loop levels = map latent_re_init levels.
Proof.
  induction levels as [| level rest IH]; simpl; congruence.
Qed.

Lemma generate_latent_levels self gen n_samples (g : G) :
  latent_levels (snd (fst (generate self gen n_samples g)))
  = fst (fst (top_down gen n_samples (latent_levels self) None g)).
Proof.
  pose proof (generate_unfold self gen n_samples g) as H.
  destruct (top_down gen n_samples (latent_levels self) None g)
    as [[levels decoding] g1].
  cbv zeta in H. rewrite H. reflexivity.
Qed.

(** C10.  [re_init] runs [generate(gen=True)] (one sample, the default) and
    then re-initialises the latent variable of every level of the stack:
    each level of the result is in its initial state and no level is
    added or lost. *)
Theorem re_init_generates_then_resets self (g : G) :
  let '(_, generated, g1) := generate self true 1 g in
  re_init self g
  = (set_latent_levels generated
       (map latent_re_init (latent_levels generated)), g1)
  /\ Forall latent_initial (latent_levels (fst (re_init self g)))
  /\ List.length (latent_levels (fst (re_init self g)))
     = List.length (latent_levels self).
Proof.
  pose proof (generate_latent_levels self true 1 g) as Hlevels.
  unfold re_init.
  destruct (generate self true 1 g) as [[drawn generated] g1].
  simpl in Hlevels. rewrite re_init_loop_map. simpl.
  split; [reflexivity | split].
  - apply Forall_forall. intros level Hin.
    apply in_map_iff in Hin. destruct Hin as [level0 [<- _]].
    apply latent_re_init_initial.
  - rewrite length_map, Hlevels. apply top_down_length.
Qed.

End Passes_properties.

(** * Runs on the symbolic instance *)

Module Runs.

Import Symbolic.

(** The single-level architecture has consistent lists and construction
    raises [IndexError] on it. *)
Lemma construct_single_level_raises :
  consistent_lengths single_level_config = true /\
  _construct (mnist_model [] [] Bernoulli) single_level_config
  = Raise IndexError.
Proof.
  split; [reflexivity |].
  apply (construct_nonempty_raises (mnist_model [] [] Bernoulli)
           single_level_config).
  simpl. discriminate.
Defined.

(** Lists of inconsistent lengths on which construction succeeds: with no
    entry in [n_latent] the other lists are never read. *)
Lemma construct_accepts_inconsistent_lengths :
  consistent_lengths no_level_config = false /\
  _construct (mnist_model [] [] Bernoulli) no_level_config
  = Ok (mnist_model ["observation"] [] Bernoulli).
Proof. split; reflexivity. Qed.

Lemma construct_checks_no_length_run :
  _construct (mnist_model [] [] Bernoulli) no_level_config
  = Ok (set_construct (mnist_model [] [] Bernoulli) ["observation"] []).
Proof.
  apply (proj2 (proj2 (construct_checks_no_length
                         (mnist_model [] [] Bernoulli) no_level_config))).
  reflexivity.
Defined.

Example generative_parameters_run :
  generative_parameters (mnist_model ["observation"] [bottom_level] Normal)
  = Raise TypeError
  /\ inference_parameters (mnist_model ["observation"] [bottom_level] Normal)
     = Ok [].
Proof. split; reflexivity. Qed.

(** With the mode [error] and a Bernoulli output distribution the exception
    is [NotImplementedError], raised before any use of [torch]; with the
    mode [gradient] and no latent level it is the [IndexError] of
    [latent_levels[0]]; with a Normal output distribution and an
    observation whose width is not the mean's, [_output_error] raises the
    [RuntimeError] of the subtraction on line 113, before [torch.exp]. *)
Lemma encoding_raises_other_than_NameError :
  (py_in "error" ["error"] = true /\
   _get_encoding_form (mnist_model ["error"] [bottom_level] Bernoulli)
     mnist_observation = Raise NotImplementedError /\
   _get_encoding_form (mnist_model ["error"] [bottom_level] Bernoulli)
     mnist_observation <> Raise (NameError "torch")) /\
  (py_in "gradient" ["gradient"] = true /\
   _get_encoding_form (mnist_model ["gradient"] [] Normal)
     mnist_observation = Raise IndexError /\
   _get_encoding_form (mnist_model ["gradient"] [] Normal)
     mnist_observation <> Raise (NameError "torch")) /\
  (dist_family (output_dist (mnist_model ["error"] [bottom_level] Normal))
   = Normal /\
   _output_error (mnist_model ["error"] [bottom_level] Normal)
     wide_observation = Raise RuntimeError /\
   _output_error (mnist_model ["error"] [bottom_level] Normal)
     wide_observation <> Raise (NameError "torch")).
Proof. repeat split; discriminate. Qed.

Lemma torch_unbound_run :
  _get_encoding_form
    (mnist_model ["observation"; "gradient"] [bottom_level] Normal)
    mnist_observation
  = Raise (NameError "torch").
Proof.
  apply (proj1 (proj2 (proj2 (torch_unbound_raises
           (mnist_model ["observation"; "gradient"] [bottom_level] Normal)
           mnist_observation)))).
  - reflexivity.
  - simpl. discriminate.
Defined.

Lemma output_error_bernoulli_run :
  _output_error (mnist_model ["error"] [bottom_level] Bernoulli)
    mnist_observation
  = Raise NotImplementedError.
Proof.
  apply (proj1 (proj2 (output_error_unimplemented
                         (mnist_model ["error"] [bottom_level] Bernoulli)
                         mnist_observation (or_introl eq_refl)))).
  simpl. lia.
Defined.

(** A Bernoulli output distribution whose mean has no sample axis: line 108
    raises [IndexError] before the family is looked at. *)
Lemma output_error_bernoulli_no_sample_axis :
  dist_family (output_dist (flat_mean_model Bernoulli)) = Bernoulli /\
  _output_error (flat_mean_model Bernoulli) mnist_observation
  = Raise IndexError /\
  _output_error (flat_mean_model Bernoulli) mnist_observation
  <> Raise NotImplementedError.
Proof. repeat split; discriminate. Qed.

Lemma get_encoding_form_observation_run :
  _get_encoding_form (mnist_model ["observation"] [bottom_level] Bernoulli)
    mnist_observation
  = Ok (sub_scalar mnist_observation (1 # 2)).
Proof.
  apply (get_encoding_form_observation
           (mnist_model ["observation"] [bottom_level] Bernoulli)
           mnist_observation).
  reflexivity.
Defined.

Lemma get_encoding_form_several_modes_run :
  exists e,
    _get_encoding_form
      (mnist_model ["observation"; "gradient"] [bottom_level] Bernoulli)
      mnist_observation
    = Raise e.
Proof.
  apply (get_encoding_form_several_modes
           (mnist_model ["observation"; "gradient"] [bottom_level] Bernoulli)
           mnist_observation).
  simpl. lia.
Defined.

Example get_encoding_form_two_modes :
  active_modes ["observation"; "gradient"] = ["observation"; "gradient"] /\
  _get_encoding_form
    (mnist_model ["observation"; "gradient"] [bottom_level] Bernoulli)
    mnist_observation
  = Raise (NameError "torch").
Proof. split; reflexivity. Qed.

Lemma output_error_normal_run :
  _output_error (mnist_model ["error"] [bottom_level] Normal)
    mnist_observation
  = Raise (NameError "torch").
Proof.
  assert (Hrank : (2 <= List.length
                         (shape (data (detach (mean (output_dist
                            (mnist_model ["error"] [bottom_level] Normal)))))))%nat)
    by (simpl; lia).
  exact (proj2 (output_error_normal_raises
                  (mnist_model ["error"] [bottom_level] Normal)
                  mnist_observation eq_refl) Hrank).
Defined.

(** A generative pass over two levels: the top level is visited first
    with [None], the bottom level consumes its decoding, and only a Normal
    family gets its log-variance written. *)
Example generate_run :
  let self := mnist_model ["observation"] [bottom_level; top_level] in
  let top := Output_of "level1.generate" None [1; 1; 1]%nat in
  let bottom := Output_of "level0.generate" (Some top) [1; 1; 256]%nat in
  let out := Output_of "output_network" (Some bottom) [1; 1; 512]%nat in
  let mean' := Output_of "output_mean" (Some out) [1; 1; 784]%nat in
  fst (fst (generate (self Normal) false 1 0%nat))
  = Output_of "sample" (Some mean') [1; 1; 784]%nat /\
  mean (output_dist (snd (fst (generate (self Normal) false 1 0%nat))))
  = mean' /\
  log_var (output_dist (snd (fst (generate (self Normal) false 1 0%nat))))
  = Output_of "output_log_var" (Some out) [1; 1; 784]%nat /\
  log_var (output_dist (snd (fst (generate (self Bernoulli) false 1 0%nat))))
  = Input "log_var" [8; 1; 784]%nat /\
  snd (generate (self Normal) false 1 0%nat) = 3%nat.
Proof. repeat split. Qed.

Example infer_run :
  let self := mnist_model ["observation"] [bottom_level; top_level] Bernoulli in
  _get_encoding_form self mnist_observation
  = Ok (Minus_scalar (Input "observation" [8; 784]%nat) (1 # 2)) /\
  infer self mnist_observation
  = Ok (mnist_model ["observation"]
          [ {| name := "level0"; config := config bottom_level;
               initial := false |};
            {| name := "level1"; config := config top_level;
               initial := false |} ] Bernoulli).
Proof. split; reflexivity. Qed.

Example re_init_run :
  let self := mnist_model ["observation"] [bottom_level; top_level] Bernoulli in
  map initial (latent_levels self) = [false; false] /\
  map initial (latent_levels (fst (re_init self 0%nat))) = [true; true] /\
  snd (re_init self 0%nat) = 3%nat.
Proof. repeat split. Qed.

End Runs.

(** * Further properties of the methods *)

Lemma py_in_In (name : string) (xs : list string) :
  py_in name xs = true <-> In name xs.
Proof.
  unfold py_in. rewrite existsb_exists. split.
  - intros [x [Hin Heq]]. apply String.eqb_eq in Heq. subst. exact Hin.
  - intros Hin. exists name. split; [exact Hin | apply String.eqb_refl].
Qed.

Lemma subscript_Ok_lt (A : Type) (xs : list A) (i : nat) :
  (exists x, subscript xs i = Ok x) <-> (i < List.length xs)%nat.
Proof.
  unfold subscript. split.
  - intros [x H]. apply nth_error_Some.
    destruct (nth_error xs i); [discriminate | discriminate H].
  - intros H. apply nth_error_Some in H.
    destruct (nth_error xs i) as [x |]; [exists x; reflexivity | congruence].
Qed.

(** ** The body of the construction loop *)

Lemma build_level_config_bounds procedure cfg level_ind :
  (exists level_cfg,
      build_level_config procedure cfg level_ind = Ok level_cfg) <->
  (level_ind < List.length (n_units_inf cfg))%nat /\
  (level_ind + 1 < List.length (n_units_gen cfg))%nat /\
  (level_ind + 1 < List.length (n_latent cfg))%nat.
Proof.
  split.
  - intros [level_cfg H]. unfold build_level_config in H.
    apply bind_Ok_inv in H. destruct H as [u1 [H1 H]].
    apply bind_Ok_inv in H. destruct H as [u2 [H2 H]].
    apply bind_Ok_inv in H. destruct H as [v [_ H]].
    apply bind_Ok_inv in H. destruct H as [u3 [_ H]].
    apply bind_Ok_inv in H. destruct H as [above [H5 _]].
    repeat split; apply subscript_Ok_lt; eauto.
  - intros (Hinf & Hgen & Hlat).
    assert (Hvar : (level_ind < List.length (n_latent cfg))%nat) by lia.
    apply subscript_Ok_lt in Hinf, Hgen, Hlat, Hvar.
    destruct Hinf as [u1 Hinf]. destruct Hgen as [u2 Hgen].
    destruct Hlat as [above Hlat]. destruct Hvar as [v Hvar].
    unfold build_level_config. rewrite Hinf, Hgen, Hvar. simpl.
    rewrite Hlat. simpl. eexists. reflexivity.
Qed.

(** X11.  The body of the loop of [_construct] completes for a level
    exactly when its three subscripts are in range: [level_ind] in
    [n_units_inf], and [level_ind + 1] in [n_units_gen] and in [n_latent];
    the lists [n_layers_inf] and [n_layers_gen] play no part. *)
Theorem build_level_config_Ok_iff procedure cfg level_ind :
  (exists level_cfg,
      build_level_config procedure cfg level_ind = Ok level_cfg) <->
  (level_ind < List.length (n_units_inf cfg))%nat /\
  (level_ind + 1 < List.length (n_units_gen cfg))%nat /\
  (level_ind + 1 < List.length (n_latent cfg))%nat.
Proof. apply build_level_config_bounds. Qed.

(** X12.  A level configuration the loop body builds is coherent: the
    latent variable's [n_in] lists the units of the level's own inference
    and generative configurations, its size is [n_latent[level_ind]], the
    inference network has no [n_in], the generative network's [n_in] is
    [n_latent[level_ind + 1]], and the inference procedure is written in
    both places. *)
Theorem build_level_config_coherent procedure cfg level_ind level_cfg :
  build_level_config procedure cfg level_ind = Ok level_cfg ->
  latent_n_in (level_latent_config level_cfg)
  = [n_units (inference_config level_cfg);
     n_units (generative_config level_cfg)] /\
  nth_error (n_latent cfg) level_ind
  = Some (n_variables (level_latent_config level_cfg)) /\
  nth_error (n_units_inf cfg) level_ind
  = Some (n_units (inference_config level_cfg)) /\
  nth_error (n_units_gen cfg) (level_ind + 1)
  = Some (n_units (generative_config level_cfg)) /\
  n_in (inference_config level_cfg) = None /\
  n_in (generative_config level_cfg)
  = nth_error (n_latent cfg) (level_ind + 1) /\
  latent_inference_procedure (level_latent_config level_cfg) = procedure /\
  level_inference_procedure level_cfg = procedure.
Proof.
  unfold build_level_config. intros H.
  apply bind_Ok_inv in H. destruct H as [u1 [H1 H]].
  apply bind_Ok_inv in H. destruct H as [u2 [H2 H]].
  apply bind_Ok_inv in H. destruct H as [v [H3 H]].
  apply bind_Ok_inv in H. destruct H as [u3 [H4 H]].
  apply bind_Ok_inv in H. destruct H as [above [H5 H]].
  apply bind_Ok_inv in H. destruct H as [u4 [H6 H]].
  apply subscript_Ok in H1, H2, H3, H4, H5, H6.
  injection H as <-. simpl.
  assert (u3 = u1) by congruence. assert (u4 = u2) by congruence. subst.
  repeat split; auto.
Qed.

(** X14.  With consistent lists the loop body completes for every level
    below the top one and for no other: the only turn of the loop that
    raises is the last. *)
Theorem build_level_config_consistent procedure cfg level_ind :
  consistent_lengths cfg = true ->
  (level_ind < List.length (n_latent cfg))%nat ->
  (exists level_cfg,
      build_level_config procedure cfg level_ind = Ok level_cfg) <->
  (level_ind + 1 < List.length (n_latent cfg))%nat.
Proof.
  unfold consistent_lengths. intros Hc Hlt.
  apply andb_prop in Hc. destruct Hc as [Hc Hgen].
  apply andb_prop in Hc. destruct Hc as [Hc _].
  apply andb_prop in Hc. destruct Hc as [_ Hinf].
  apply Nat.eqb_eq in Hgen, Hinf.
  rewrite build_level_config_bounds, Hgen, Hinf. lia.
Qed.

Section Construction_more.

Context {T L G : Type}.
Context `{LevelL : LatentLevel T L G}.

Lemma construct_loop_nonempty procedure cfg :
  n_latent cfg <> [] ->
  construct_loop (L := L) procedure cfg
    (seq 0 (List.length (n_latent cfg))) []
  = Raise IndexError.
Proof.
  intros Hne.
  assert (Hlen : (0 < List.length (n_latent cfg))%nat).
  { destruct (n_latent cfg); [congruence | simpl; lia]. }
  apply (@construct_loop_top _ _ _ _ procedure cfg _ []
           (List.length (n_latent cfg) - 1)%nat).
  - apply in_seq. lia.
  - lia.
Qed.

(** X13.  [_construct] returns a model exactly when [n_latent] is empty,
    and the model it returns is [self] with the inference procedure set
    and no latent level: it never returns a model that has a level. *)
Theorem construct_Ok_iff (self m : FullyConnectedModel T L)
    (cfg : model_config) :
  _construct self cfg = Ok m <->
  n_latent cfg = [] /\ m = set_construct self (inference_input_form cfg) [].
Proof.
  split.
  - intros H. destruct (n_latent cfg) as [| z rest] eqn:E.
    + unfold _construct in H. rewrite E in H. simpl in H.
      injection H as <-. auto.
    + exfalso. unfold _construct in H.
      rewrite construct_loop_nonempty in H; [discriminate H |].
      rewrite E. discriminate.
  - intros [E ->]. unfold _construct. rewrite E. reflexivity.
Qed.

End Construction_more.

Section Methods_more.

Context {T L G : Type}.
Context `{TorchT : Torch T} `{NormT : Normalisation T}
        `{LevelL : LatentLevel T L G} `{SamplingT : Sampling T G}.

Implicit Types (self : FullyConnectedModel T L) (observation : T).

(** ** The output error on every input *)

(** X3.  [_output_error] returns a value on no input, and its exception is
    settled in this order: [IndexError] when the mean has no second axis;
    otherwise [NotImplementedError] for a Bernoulli or Multinomial family,
    whatever the observation; otherwise, for Normal, the [RuntimeError] of
    the subtraction when the broadcast observation and the mean have shapes
    that do not broadcast, and the [NameError] of [torch.exp] when they
    do. *)
Theorem output_error_exception self observation :
  _output_error self observation
  = Raise
      match nth_error (shape (data (detach (mean (output_dist self))))) 1 with
      | None => IndexError
      | Some n_samples =>
          match dist_family (output_dist self) with
          | Normal =>
              if broadcastable
                   (shape (broadcast_observation observation n_samples))
                   (shape (detach (mean (output_dist self))))
              then NameError "torch"
              else RuntimeError
          | Bernoulli | Multinomial => NotImplementedError
          end
      end.
Proof.
  destruct (nth_error (shape (data (detach (mean (output_dist self))))) 1)
    as [n |] eqn:E.
  - rewrite (output_error_family self observation E).
    destruct (dist_family (output_dist self)); reflexivity.
  - apply output_error_no_samples. apply nth_error_None in E. lia.
Qed.

(** ** The encoding on every procedure *)

Lemma get_encoding_form_Ok self observation (v : T) :
  _get_encoding_form self observation = Ok v <->
  py_in "observation" (inference_procedure self) = true /\
  py_in "gradient" (inference_procedure self) = false /\
  py_in "error" (inference_procedure self) = false /\
  v = sub_scalar observation (1 # 2).
Proof.
  split.
  - intros H.
    destruct (py_in "gradient" (inference_procedure self)) eqn:Hg.
    { exfalso.
      exact (get_encoding_form_never_returns self observation
               (or_introl Hg) H). }
    destruct (py_in "error" (inference_procedure self)) eqn:He.
    { exfalso.
      exact (get_encoding_form_never_returns self observation
               (or_intror He) H). }
    revert H.
    unfold _get_encoding_form, encoding_observation, encoding_gradient,
      encoding_error.
    rewrite Hg, He.
    destruct (py_in "observation" (inference_procedure self)); simpl.
    + intros H. injection H as <-. auto.
    + intros H. discriminate H.
  - intros (Ho & Hg & He & ->).
    unfold _get_encoding_form, encoding_observation, encoding_gradient,
      encoding_error.
    rewrite Ho, Hg, He. reflexivity.
Qed.

(** X1.  [_get_encoding_form] returns a value exactly when the procedure
    holds [observation] and neither [gradient] nor [error], whatever else
    it holds, and the value is then [observation - 0.5]. *)
Theorem get_encoding_form_returns_iff self observation (v : T) :
  _get_encoding_form self observation = Ok v <->
  py_in "observation" (inference_procedure self) = true /\
  py_in "gradient" (inference_procedure self) = false /\
  py_in "error" (inference_procedure self) = false /\
  v = sub_scalar observation (1 # 2).
Proof. apply get_encoding_form_Ok. Qed.

(** X2.  With none of the three modes in the procedure the list of
    contributions is empty, line 98 falls to [torch.cat] and
    [_get_encoding_form] raises [NameError]. *)
Theorem get_encoding_form_no_mode self observation :
  active_modes (inference_procedure self) = [] ->
  _get_encoding_form self observation = Raise (NameError "torch").
Proof.
  unfold active_modes, modes. simpl. intros H.
  destruct (py_in "observation" (inference_procedure self)) eqn:Ho;
    [discriminate H |].
  destruct (py_in "gradient" (inference_procedure self)) eqn:Hg;
    [discriminate H |].
  destruct (py_in "error" (inference_procedure self)) eqn:He;
    [discriminate H |].
  unfold _get_encoding_form, encoding_observation, encoding_gradient,
    encoding_error.
  rewrite Ho, Hg, He. reflexivity.
Qed.

(** ** Inference *)

Lemma bottom_up_length (levels : list L) (encoding : T) :
  List.length (fst (bottom_up levels encoding)) = List.length levels.
Proof.
  revert encoding. induction levels as [| level above IH]; simpl; intros e.
  - reflexivity.
  - destruct (level_infer level e) as [level' e'].
    specialize (IH e'). destruct (bottom_up above e') as [above' top].
    simpl in *. congruence.
Qed.

Lemma infer_Ok self observation (m : FullyConnectedModel T L) :
  infer self observation = Ok m <->
  py_in "observation" (inference_procedure self) = true /\
  py_in "gradient" (inference_procedure self) = false /\
  py_in "error" (inference_procedure self) = false /\
  m = set_latent_levels self
        (fst (bottom_up (latent_levels self)
                (sub_scalar observation (1 # 2)))).
Proof.
  unfold infer. split.
  - intros H. apply bind_Ok_inv in H. destruct H as [encoding [Henc H]].
    apply get_encoding_form_Ok in Henc.
    destruct Henc as (Ho & Hg & He & ->).
    rewrite infer_loop_bottom_up in H.
    destruct (bottom_up (latent_levels self)
                (sub_scalar observation (1 # 2))) as [visited top].
    simpl in H. injection H as <-. auto.
  - intros (Ho & Hg & He & ->).
    assert (Henc : _get_encoding_form self observation
                   = Ok (sub_scalar observation (1 # 2))).
    { apply get_encoding_form_Ok. auto. }
    rewrite Henc. simpl. rewrite infer_loop_bottom_up.
    destruct (bottom_up (latent_levels self)
                (sub_scalar observation (1 # 2))) as [visited top].
    reflexivity.
Qed.

(** X4.  [infer] completes exactly when the procedure holds [observation]
    and neither [gradient] nor [error]; the levels of the model are then
    those the bottom-up pass leaves, started on [observation - 0.5]. *)
Theorem infer_returns_iff self observation (m : FullyConnectedModel T L) :
  infer self observation = Ok m <->
  py_in "observation" (inference_procedure self) = true /\
  py_in "gradient" (inference_procedure self) = false /\
  py_in "error" (inference_procedure self) = false /\
  m = set_latent_levels self
        (fst (bottom_up (latent_levels self)
                (sub_scalar observation (1 # 2)))).
Proof. apply infer_Ok. Qed.

(** X5.  An [infer] that completes keeps the number of levels and touches
    nothing but the levels: the procedure, the three output networks and
    the output distribution are as before. *)
Theorem infer_preserves self observation (m : FullyConnectedModel T L) :
  infer self observation = Ok m ->
  List.length (latent_levels m) = List.length (latent_levels self) /\
  inference_procedure m = inference_procedure self /\
  output_network m = output_network self /\
  output_mean m = output_mean self /\
  output_log_var m = output_log_var self /\
  output_dist m = output_dist self.
Proof.
  intros H. apply infer_Ok in H. destruct H as (_ & _ & _ & ->). simpl.
  rewrite bottom_up_length. repeat split.
Qed.

(** X6.  The loop of [infer] over a stack [below ++ above] is the loop over
    [below] followed by the loop over [above], which starts on the encoding
    [below] ends with. *)
Theorem infer_loop_app (below above done : list L) (encoding : T) :
  infer_loop (below ++ above) done encoding
  = let '(done', encoding') := infer_loop below done encoding in
    infer_loop above done' encoding'.
Proof.
  revert done encoding.
  induction below as [| level rest IH]; simpl; intros done encoding.
  - reflexivity.
  - destruct (level_infer level encoding) as [level' encoding'].
    apply IH.
Qed.

(** ** Generation *)

(** X7.  [generate] keeps the number of levels, the procedure, the three
    output networks and the family of the output distribution. *)
Theorem generate_preserves self (gen : bool) (n_samples : Z) (g : G) :
  let after := snd (fst (generate self gen n_samples g)) in
  List.length (latent_levels after) = List.length (latent_levels self) /\
  inference_procedure after = inference_procedure self /\
  output_network after = output_network self /\
  output_mean after = output_mean self /\
  output_log_var after = output_log_var self /\
  dist_family (output_dist after) = dist_family (output_dist self).
Proof.
  pose proof (generate_unfold self gen n_samples g) as H.
  pose proof (top_down_length gen n_samples (latent_levels self) None g)
    as Hlen.
  destruct (top_down gen n_samples (latent_levels self) None g)
    as [[levels decoding] g1].
  cbv zeta in H. rewrite H. simpl in *. repeat split. exact Hlen.
Qed.

(** X8.  The loop of [generate] over a stack [below ++ above] visits
    [above] first, seeded with [None], and then [below], seeded with the
    decoding [above] ends with. *)
Theorem generate_loop_stack (gen : bool) (n_samples : Z)
    (below above : list L) (g : G) :
  generate_loop gen n_samples (rev (below ++ above)) [] None g
  = let '(above', decoding, g1) :=
      generate_loop gen n_samples (rev above) [] None g in
    let '(below', decoding', g2) :=
      generate_loop gen n_samples (rev below) [] decoding g1 in
    (below' ++ above', decoding', g2).
Proof.
  rewrite !generate_loop_top_down, top_down_app.
  destruct (top_down gen n_samples above None g) as [[above' decoding] g1].
  rewrite generate_loop_top_down. reflexivity.
Qed.

(** X9.  With no latent level [generate] hands [None] to the output
    network, writes the parameters of the output distribution from what
    comes back and draws one sample; the generator has advanced by that
    draw alone. *)
Theorem generate_no_level self (gen : bool) (n_samples : Z) (g : G) :
  latent_levels self = [] ->
  let bottom := forward (output_network self) None in
  let dist :=
    {| dist_family := dist_family (output_dist self);
       mean := forward (output_mean self) (Some bottom);
       log_var :=
         match dist_family (output_dist self) with
         | Normal => forward (output_log_var self) (Some bottom)
         | Bernoulli | Multinomial => log_var (output_dist self)
         end |} in
  generate self gen n_samples g
  = (fst (sample dist g), set_output_dist self dist, snd (sample dist g)).
Proof.
  intros Hnil. pose proof (generate_unfold self gen n_samples g) as H.
  rewrite Hnil in H. simpl in H. cbv zeta. rewrite H.
  unfold set_output_dist, set_latent_levels, set_construct. simpl.
  rewrite Hnil. reflexivity.
Qed.

(** ** The inference parameters *)

(** X10.  [inference_parameters] raises on no model; it returns the
    inference parameters of the levels, bottom level first, so a parameter
    is listed exactly when some level lists it, and nothing of the output
    networks is. *)
Theorem inference_parameters_levels self :
  exists params,
    inference_parameters self = Ok params /\
    params = flat_map level_inference_parameters (latent_levels self) /\
    (forall p,
        In p params <->
        exists level,
          In level (latent_levels self)
          /\ In p (level_inference_parameters level)).
Proof.
  exists (flat_map level_inference_parameters (latent_levels self)).
  split; [apply inference_parameters_Ok | split; [reflexivity |]].
  intros p. apply in_flat_map.
Qed.

End Methods_more.

(** ** Binding the configuration as keyword arguments *)

Lemma dict_get_In (d : dict) (key : string) :
  (exists v, dict_get d key = Some v) <-> In key (dict_keys d).
Proof.
  induction d as [| [k v] rest IH]; simpl.
  - split; [intros [v H]; discriminate H | intros []].
  - destruct (String.eqb key k) eqn:E.
    + apply String.eqb_eq in E. subst. split; eauto.
    + apply String.eqb_neq in E. rewrite IH. split.
      * auto.
      * intros [H | H]; [congruence | exact H].
Qed.

Lemma bind_parameters_Raise (parameters : list string) (kwargs : dict) e :
  bind_parameters parameters kwargs = Raise e -> e = TypeError.
Proof.
  induction parameters as [| p rest IH]; simpl; intros H.
  - discriminate H.
  - destruct (dict_get kwargs p) as [v |]; [| congruence].
    apply bind_Raise_inv in H. destruct H as [H | [vs [_ H]]].
    + exact (IH H).
    + discriminate H.
Qed.

Lemma bind_parameters_Ok (parameters : list string) (kwargs : dict)
    (args : list pyval) :
  bind_parameters parameters kwargs = Ok args <->
  Forall2 (fun p v => dict_get kwargs p = Some v) parameters args.
Proof.
  revert args. induction parameters as [| p rest IH]; simpl; intros args.
  - split.
    + intros H. injection H as <-. constructor.
    + intros H. inversion H. reflexivity.
  - split.
    + intros H. destruct (dict_get kwargs p) as [v |] eqn:E; [| discriminate H].
      apply bind_Ok_inv in H. destruct H as [vs [Hvs H]].
      injection H as <-. constructor; [exact E | apply IH; exact Hvs].
    + intros H. inversion H as [| p' v ps vs Hp Hrest]; subst.
      rewrite Hp. apply IH in Hrest. rewrite Hrest. reflexivity.
Qed.

Lemma bind_keywords_Ok (parameters : list string) (kwargs : dict)
    (args : list pyval) :
  bind_keywords parameters kwargs = Ok args <->
  (forall key, In key (dict_keys kwargs) -> In key parameters) /\
  Forall2 (fun p v => dict_get kwargs p = Some v) parameters args.
Proof.
  unfold bind_keywords.
  destruct (forallb (fun key => py_in key parameters) (dict_keys kwargs))
    eqn:E.
  - rewrite forallb_forall in E. rewrite bind_parameters_Ok. split.
    + intros H. split; [| exact H].
      intros key Hin. apply py_in_In. apply E. exact Hin.
    + intros [_ H]. exact H.
  - split; [intros H; discriminate H |].
    intros [Hkeys _]. exfalso.
    assert (Hall : forallb (fun key => py_in key parameters)
                     (dict_keys kwargs) = true).
    { apply forallb_forall. intros key Hin. apply py_in_In. auto. }
    congruence.
Qed.

(** X15.  The call [_construct( **model_config )] binds exactly when the
    keys of the dictionary are the parameters of [_construct], no more and
    no fewer; the arguments are then the dictionary's values in the order
    of the parameters, and a call that does not bind raises [TypeError]. *)
Theorem bind_keywords_Ok_iff (parameters : list string) (kwargs : dict) :
  ((exists args, bind_keywords parameters kwargs = Ok args) <->
   (forall key, In key (dict_keys kwargs) <-> In key parameters)) /\
  (forall args,
      bind_keywords parameters kwargs = Ok args ->
      Forall2 (fun p v => dict_get kwargs p = Some v) parameters args) /\
  (forall e, bind_keywords parameters kwargs = Raise e -> e = TypeError).
Proof.
  split; [| split].
  - split.
    + intros [args H]. apply bind_keywords_Ok in H. destruct H as [Hkeys Hall].
      intros key. split; [apply Hkeys |].
      intros Hin. apply dict_get_In.
      clear Hkeys. induction Hall as [| p v ps vs Hp _ IH].
      * destruct Hin.
      * destruct Hin as [<- | Hin]; [eauto | exact (IH Hin)].
    + intros Hkeys.
      assert (Hargs : exists args,
                 Forall2 (fun p v => dict_get kwargs p = Some v)
                   parameters args).
      { assert (Hsub : forall p, In p parameters -> In p (dict_keys kwargs))
          by (intros p; apply Hkeys).
        clear Hkeys. induction parameters as [| p rest IH].
        - exists []. constructor.
        - destruct IH as [vs Hvs]; [intros q Hq; apply Hsub; right; exact Hq |].
          destruct (proj2 (dict_get_In kwargs p) (Hsub p (or_introl eq_refl)))
            as [v Hv].
          exists (v :: vs). constructor; assumption. }
      destruct Hargs as [args Hargs]. exists args.
      apply bind_keywords_Ok. split; [intros key; apply Hkeys | exact Hargs].
  - intros args H. apply bind_keywords_Ok in H. apply H.
  - intros e. unfold bind_keywords.
    destruct (forallb _ _); [apply bind_parameters_Raise | congruence].
Qed.

(** X16.  A dictionary with a key that names no parameter, or without a
    key for some parameter, does not bind: the call raises [TypeError]
    before the body of [_construct] runs. *)
Theorem bind_keywords_mismatch (parameters : list string) (kwargs : dict)
    (name : string) :
  (py_in name (dict_keys kwargs) = true /\ py_in name parameters = false)
  \/ (py_in name parameters = true /\ py_in name (dict_keys kwargs) = false) ->
  bind_keywords parameters kwargs = Raise TypeError.
Proof.
  intros H.
  destruct (bind_keywords parameters kwargs) as [args | e] eqn:E.
  - exfalso. apply bind_keywords_Ok in E. destruct E as [Hkeys Hall].
    destruct H as [[Hk Hp] | [Hp Hk]].
    + apply py_in_In in Hk. apply Hkeys in Hk. apply py_in_In in Hk.
      congruence.
    + apply py_in_In in Hp.
      assert (Hin : In name (dict_keys kwargs)).
      { apply dict_get_In. clear Hkeys Hk.
        induction Hall as [| p v ps vs Hpv _ IH].
        - destruct Hp.
        - destruct Hp as [<- | Hp]; [eauto | exact (IH Hp)]. }
      apply py_in_In in Hin. congruence.
  - f_equal. revert E. unfold bind_keywords.
    destruct (forallb _ _); [apply bind_parameters_Raise | congruence].
Qed.

(** * Further runs on the symbolic instance *)

Module More_runs.

Import Symbolic.

(** The procedure of the shipped architecture, [encoding_form =
    ['posterior']], activates no mode. *)
Lemma get_encoding_form_no_mode_run :
  _get_encoding_form (mnist_model ["posterior"] [bottom_level] Bernoulli)
    mnist_observation
  = Raise (NameError "torch").
Proof.
  apply (get_encoding_form_no_mode
           (mnist_model ["posterior"] [bottom_level] Bernoulli)
           mnist_observation).
  reflexivity.
Defined.

Lemma infer_preserves_run :
  let self := mnist_model ["observation"] [bottom_level; top_level] Bernoulli in
  let m := mnist_model ["observation"] inferred_levels Bernoulli in
  List.length (latent_levels m) = List.length (latent_levels self) /\
  inference_procedure m = inference_procedure self /\
  output_network m = output_network self /\
  output_mean m = output_mean self /\
  output_log_var m = output_log_var self /\
  output_dist m = output_dist self.
Proof.
  apply (infer_preserves
           (mnist_model ["observation"] [bottom_level; top_level] Bernoulli)
           mnist_observation
           (m := mnist_model ["observation"] inferred_levels Bernoulli)).
  reflexivity.
Defined.

Lemma generate_no_level_run :
  fst (fst (generate (mnist_model ["observation"] [] Normal) true 1 0%nat))
  = Output_of "sample"
      (Some (Output_of "output_mean"
               (Some (Output_of "output_network" None [512%nat]))
               [784%nat]))
      [784%nat]
  /\ snd (generate (mnist_model ["observation"] [] Normal) true 1 0%nat)
     = 1%nat.
Proof.
  rewrite (generate_no_level (mnist_model ["observation"] [] Normal) true 1
             0%nat eq_refl).
  split; reflexivity.
Defined.

Lemma build_level_config_coherent_run :
  exists level_cfg,
    build_level_config ["observation"] two_level_config 0 = Ok level_cfg /\
    latent_n_in (level_latent_config level_cfg) = [512%Z; 256%Z] /\
    n_in (generative_config level_cfg) = Some 32%Z.
Proof.
  eexists. split; [reflexivity |].
  destruct (@build_level_config_coherent ["observation"] two_level_config 0
              _ eq_refl) as (Hn & _ & _ & _ & _ & Hin & _).
  split; [exact Hn | exact Hin].
Defined.

Lemma build_level_config_consistent_run :
  (exists level_cfg,
      build_level_config ["observation"] two_level_config 0 = Ok level_cfg)
  /\ ~ (exists level_cfg,
          build_level_config ["observation"] two_level_config 1
          = Ok level_cfg).
Proof.
  split.
  - apply (@build_level_config_consistent ["observation"] two_level_config 0
             eq_refl); simpl; lia.
  - intros H.
    apply (@build_level_config_consistent ["observation"] two_level_config 1
             eq_refl) in H; simpl in *; lia.
Defined.

(** The shipped [arch] does not bind to [_construct]: [model_form] names
    no parameter. *)
Lemma bind_keywords_arch :
  bind_keywords construct_parameters Config.arch = Raise TypeError.
Proof.
  apply (bind_keywords_mismatch construct_parameters Config.arch
           "model_form").
  left. split; reflexivity.
Defined.

End More_runs.
